(** * Environment detection exporter (microservice.py)

    A shallow embedding of [microservice.py]: the three probes of
    [EnvironmentDetector], the classification chain
    [get_environment_type], the gauge update [update_metrics] and the
    start-up routine [main], followed by the properties checked against
    them.

    Python values are modelled as follows.
    - [str] is [string], the bytes of the UTF-8 encoding of the text;
      [str.lower] is [Str.lower]; [a in b] on strings is [Str.contains].
    - An exception is a record of its class and its text; what is raised
      is either such an exception ([Exc], the instances of Python's
      [Exception]), [KeyboardInterrupt] or [SystemExit].
    - Code runs in a state and exception monad [M]: the state (gauge,
      log records, listening ports, ...) survives a raised exception, as
      side effects do in Python.
    - The host (files, environment variables, commands, ports, standard
      input) is a read-only record [world]. What it answers to a probe
      is a value or an instance of [Exception]; an interrupt arrives
      only at [input()].
    - [prometheus_client] is taken to be installed: the module-level
      [sys.exit(1)] on [ImportError] is not part of the model. *)

From stdpp Require Import base option list strings pretty gmap fin_maps.
From Stdlib Require Import ZArith Ascii Lia.

Local Open Scope Z_scope.

(** ** Strings *)

Module Str.

(** A [str] is modelled by the bytes of its UTF-8 encoding. *)

(** The byte with code [n]. *)
Definition byte (n : N) : ascii := ascii_of_N n.

Definition is_byte (n : N) (c : ascii) : bool := (N_of_ascii c =? n)%N.

(** [c.lower()] on one ASCII character. *)
Definition lower_ascii (c : ascii) : ascii :=
  let n := N_of_ascii c in
  if ((65 <=? n) && (n <=? 90))%N then ascii_of_N (n + 32) else c.

(** [s.lower()], as far as the ASCII characters of the result go. The
    letters A to Z are lower-cased. Two characters outside ASCII have a
    lower case with an ASCII character in it, and they are lower-cased
    as Python does: the Kelvin sign U+212A (bytes 226 132 170) becomes
    [k], and the dotted capital I U+0130 (bytes 196 176) becomes [i]
    followed by the combining dot U+0307 (bytes 204 135). Every other
    character outside ASCII is left as it is: its lower case has no
    ASCII character, so no search for an ASCII signature can tell. *)
Fixpoint lower (s : string) : string :=
  match s with
  | EmptyString => EmptyString
  | String c s1 =>
      match s1 with
      | String d s2 =>
          if is_byte 196 c && is_byte 176 d then
            String "i" (String (byte 204) (String (byte 135) (lower s2)))
          else
            match s2 with
            | String e s3 =>
                if is_byte 226 c && is_byte 132 d && is_byte 170 e
                then String "k" (lower s3)
                else String (lower_ascii c) (lower s1)
            | EmptyString => String (lower_ascii c) (lower s1)
            end
      | EmptyString => String (lower_ascii c) (lower s1)
      end
  end.

(** [s.startswith(p)]. *)
Fixpoint startswith (p s : string) : bool :=
  match p, s with
  | EmptyString, _ => true
  | String _ _, EmptyString => false
  | String a p', String b s' =>
      if Ascii.eqb a b then startswith p' s' else false
  end.

(** [p in s]: [p] occurs in [s] as a contiguous substring. *)
Fixpoint contains (p s : string) : bool :=
  startswith p s ||
  match s with
  | EmptyString => false
  | String _ s' => contains p s'
  end.

(** [any(p in s for p in ps)]. *)
Definition contains_any (ps : list string) (s : string) : bool :=
  existsb (fun p => contains p s) ps.

(** The first element of [ps] that occurs in [s]: the element at which
    [for p in ps: if p in s: ...; return True] leaves the loop. *)
Definition first_match (ps : list string) (s : string) : option string :=
  List.find (fun p => contains p s) ps.

End Str.

(** ** Exceptions, log records *)

Inductive exc_class : Type :=
  | FileNotFoundError
  | PermissionError
  | IsADirectoryError
  | OSError
  | UnicodeDecodeError
  | TimeoutExpired
  | CalledProcessError
  | EOFError
  | RuntimeError.

Definition exc_class_eqb (a b : exc_class) : bool :=
  match a, b with
  | FileNotFoundError, FileNotFoundError
  | PermissionError, PermissionError
  | IsADirectoryError, IsADirectoryError
  | OSError, OSError
  | UnicodeDecodeError, UnicodeDecodeError
  | TimeoutExpired, TimeoutExpired
  | CalledProcessError, CalledProcessError
  | EOFError, EOFError
  | RuntimeError, RuntimeError => true
  | _, _ => false
  end.

(** An instance of [Exception]: its class and [str(e)]. *)
Record exn : Type := MkExn { exn_class : exc_class; exn_str : string }.

(** What a [raise] carries. [KeyboardInterrupt] and [SystemExit] derive
    from [BaseException] only, so [except Exception] lets them through. *)
Inductive raised : Type :=
  | Exc (e : exn)
  | KeyboardInterrupt
  | SystemExit (code : Z).

Inductive level : Type := DEBUG | INFO | WARNING | ERROR.

Record log_record : Type := LogRecord { lvl : level; text : string }.

(** ** The process state *)

(** [gauge] is [ENVIRONMENT_TYPE]: a gauge with the one label
    [environment]; each label value that was touched has a child holding
    a number.
    [logs]: the calls made on [logger], oldest first.
    [bind_calls]: the ports [start_http_server] was called with, oldest
    first. [listening]: the ports a listener was started on.
    [stdout]: what was printed.
    [port]: the local variable [port] of [main]; it lives in the state
    because the [finally] block reads it after the [except] clause has
    assigned to it. *)
Record state : Type := MkState {
  gauge : gmap string Z;
  logs : list log_record;
  bind_calls : list Z;
  listening : list Z;
  stdout : list string;
  port : Z
}.

Definition init_state : state :=
  {| gauge := ∅; logs := []; bind_calls := []; listening := [];
     stdout := []; port := 0 |}.

Definition with_gauge (g : gmap string Z) (s : state) : state :=
  {| gauge := g; logs := logs s; bind_calls := bind_calls s;
     listening := listening s; stdout := stdout s; port := port s |}.

Definition add_logs (l : list log_record) (s : state) : state :=
  {| gauge := gauge s; logs := logs s ++ l; bind_calls := bind_calls s;
     listening := listening s; stdout := stdout s; port := port s |}.

Definition add_log (r : log_record) (s : state) : state := add_logs [r] s.

Definition add_bind_call (p : Z) (ok : bool) (s : state) : state :=
  {| gauge := gauge s; logs := logs s; bind_calls := bind_calls s ++ [p];
     listening := if ok then listening s ++ [p] else listening s;
     stdout := stdout s; port := port s |}.

Definition add_stdout (t : string) (s : state) : state :=
  {| gauge := gauge s; logs := logs s; bind_calls := bind_calls s;
     listening := listening s; stdout := stdout s ++ [t]; port := port s |}.

Definition with_port (p : Z) (s : state) : state :=
  {| gauge := gauge s; logs := logs s; bind_calls := bind_calls s;
     listening := listening s; stdout := stdout s; port := p |}.

(** ** The monad *)

Inductive outcome (A : Type) : Type :=
  | Ret (a : A)
  | Raise (r : raised).
Arguments Ret {A} a.
Arguments Raise {A} r.

Definition M (A : Type) : Type := state -> outcome A * state.

Definition ret {A} (a : A) : M A := fun s => (Ret a, s).

Definition raise {A} (r : raised) : M A := fun s => (Raise r, s).

Definition bind {A B} (m : M A) (k : A -> M B) : M B :=
  fun s =>
    match m s with
    | (Ret a, s') => k a s'
    | (Raise r, s') => (Raise r, s')
    end.

Notation "x <- m ;; k" := (bind m (fun x => k))
  (at level 100, m at next level, right associativity).
Notation "m ;;; k" := (bind m (fun _ => k))
  (at level 100, right associativity).

(** [try: body except ...]: [handler r] is [Some h] when one of the
    [except] clauses takes [r]; the handler runs in the state the body
    left behind. *)
Definition try_except {A} (body : M A) (handler : raised -> option (M A)) : M A :=
  fun s =>
    match body s with
    | (Ret a, s') => (Ret a, s')
    | (Raise r, s') =>
        match handler r with
        | Some h => h s'
        | None => (Raise r, s')
        end
    end.

(** [try: body finally: fin]. *)
Definition try_finally {A} (body : M A) (fin : M unit) : M A :=
  fun s =>
    match body s with
    | (o, s') =>
        match fin s' with
        | (Ret _, s'') => (o, s'')
        | (Raise r, s'') => (Raise r, s'')
        end
    end.

(** [except Exception as e: h e]. *)
Definition except_Exception {A} (h : exn -> M A) : raised -> option (M A) :=
  fun r => match r with Exc e => Some (h e) | _ => None end.

(** [except (C1, ..., Cn): h]. None of the modelled classes derives from
    another one that is ever listed, so [isinstance] is class equality. *)
Definition except_classes {A} (cs : list exc_class) (h : M A)
  : raised -> option (M A) :=
  fun r =>
    match r with
    | Exc e => if existsb (exc_class_eqb (exn_class e)) cs then Some h else None
    | _ => None
    end.

(** [logger.<level>(msg)]. *)
Definition log (l : level) (msg : string) : M unit :=
  fun s => (Ret tt, add_log (LogRecord l msg) s).

(** [sys.exit(code)]. *)
Definition sys_exit {A} (code : Z) : M A := raise (SystemExit code).

(** ** The host *)

(** What [open(path).read()] gives for a path that exists. *)
Inductive read_result : Type :=
  | Content (c : string)
  | ReadError (e : exn).

(** What [subprocess.run(args, capture_output=True, text=True, timeout=t)]
    gives: a completed process with its return code and standard
    output, or an exception (command not found, timeout, permission
    denied, undecodable output, ...). *)
Inductive run_result : Type :=
  | Completed (returncode : Z) (out : string)
  | RunError (e : exn).

(** What [input()] gives: a line, end of file, or an interrupt. *)
Inductive input_result : Type :=
  | Line (l : string)
  | EndOfFile
  | Interrupt.

(** [fs] maps the paths that exist to what reading them gives;
    [environ] is [os.environ]; [bind_port p] is [Some e] when binding
    port [p] fails with [e]. *)
Record world : Type := MkWorld {
  fs : gmap string read_result;
  environ : gmap string string;
  subprocess_run : list string -> run_result;
  bind_port : Z -> option exn;
  stdin : input_result
}.

Section Host.

Variable w : world.

(** [os.path.exists(path)]. *)
Definition path_exists (path : string) : bool :=
  match fs w !! path with Some _ => true | None => false end.

(** [with open(path, 'r') as f: f.read()]. *)
Definition read_file (path : string) : M string :=
  match fs w !! path with
  | Some (Content c) => ret c
  | Some (ReadError e) => raise (Exc e)
  | None =>
      raise (Exc (MkExn FileNotFoundError
               ("[Errno 2] No such file or directory: '" +:+ path +:+ "'")))
  end.

(** [var in os.environ]. *)
Definition in_environ (var : string) : bool :=
  match environ w !! var with Some _ => true | None => false end.

(** [subprocess.run(args, ...)]; [result.returncode], [result.stdout]. *)
Definition run (args : list string) : M (Z * string) :=
  match subprocess_run w args with
  | Completed rc out => ret (rc, out)
  | RunError e => raise (Exc e)
  end.

End Host.

(** ** EnvironmentDetector *)

(** A Python value that is [None] or a [bool]. *)
Inductive pyval : Type :=
  | PyNone
  | PyBool (b : bool).

(** [bool(v)]: the truth value an [if] or [elif] takes of [v]. *)
Definition truthy (v : pyval) : bool :=
  match v with PyNone => false | PyBool b => b end.

(** A block that can [return]: [Some v] when it returned [v], [None]
    when control fell off its end. *)
Definition or_else {A} (r : option A) (rest : M A) : M A :=
  match r with Some v => ret v | None => rest end.

Definition cgroup_1_signatures : list string :=
  ["docker"; "containerd"; "kubepods"].

Definition container_indicators : list string :=
  ["docker"; "lxc"; "containerd"; "kubepods"; "system.slice/docker"].

Definition container_env_vars : list string :=
  ["DOCKER_CONTAINER"; "container"; "KUBERNETES_SERVICE_HOST"].

Definition vm_signatures : list string :=
  ["vmware"; "virtualbox"; "kvm"; "qemu"; "xen";
   "hyperv"; "microsoft hv"; "parallels"; "bochs"].

Definition vm_indicators : list string :=
  ["hypervisor"; "vmware"; "virtualbox"; "kvm";
   "qemu"; "xen"; "bochs"; "parallels"].

Definition windows_vm_indicators : list string :=
  ["vmware"; "virtualbox"; "microsoft corporation";
   "xen"; "qemu"; "parallels"; "innotek"; "bochs"].

Definition wmic_args : list string :=
  ["wmic"; "computersystem"; "get"; "manufacturer,model"; "/format:list"].

(** [for x in xs: if x in s: logger.info(x); return True]. *)
Definition scan (xs : list string) (s : string) : M (option bool) :=
  match Str.first_match xs s with
  | Some x => log INFO x ;;; ret (Some true)
  | None => ret None
  end.

Section Detector.

Variable w : world.

Definition is_container : M bool :=
  r <- try_except
         (r1 <- (if path_exists w "/proc/1/cgroup" then
                   c <- read_file w "/proc/1/cgroup" ;;
                   let cgroup_content := Str.lower c in
                   if Str.contains "docker" cgroup_content
                      || Str.contains "containerd" cgroup_content
                      || Str.contains "kubepods" cgroup_content
                   then ret (Some true) else ret None
                 else ret None) ;;
          match r1 with
          | Some v => ret (Some v)
          | None =>
          r2 <- (if path_exists w "/proc/self/cgroup" then
                   c <- read_file w "/proc/self/cgroup" ;;
                   let cgroup_content := Str.lower c in
                   if Str.contains_any container_indicators cgroup_content
                   then ret (Some true) else ret None
                 else ret None) ;;
          match r2 with
          | Some v => ret (Some v)
          | None =>
          if existsb (in_environ w) container_env_vars
          then ret (Some true) else ret None
          end end)
         (except_Exception (fun e =>
            log WARNING ("Error checking container environment: " +:+ exn_str e) ;;;
            ret None)) ;;
  or_else r (ret false).

Definition is_vm : M bool :=
  r1 <- try_except
          (result <- run w ["cpuid"] ;;
           if fst result =? 0 then
             let cpuid_output := Str.lower (snd result) in
             scan vm_signatures cpuid_output
           else ret None)
          (except_classes [TimeoutExpired; CalledProcessError; FileNotFoundError]
             (log DEBUG "cpuid command not available or failed" ;;; ret None)) ;;
  or_else r1 (
  r2 <- try_except
          (c <- read_file w "/proc/cpuinfo" ;;
           let cpuinfo := Str.lower c in
           scan vm_indicators cpuinfo)
          (except_Exception (fun e =>
             log DEBUG ("Failed to read /proc/cpuinfo: " +:+ exn_str e) ;;;
             ret None)) ;;
  or_else r2 (ret false)).

Definition detect_vm_windows : M pyval :=
  r <- try_except
         (result <- run w wmic_args ;;
          if fst result =? 0 then
            let output := Str.lower (snd result) in
            scan windows_vm_indicators output
          else ret None)
         (except_Exception (fun e =>
            log DEBUG ("WMI detection failed: " +:+ exn_str e) ;;;
            ret None)) ;;
  match r with
  | Some v => ret (PyBool v)
  | None => ret PyNone
  end.

Definition get_environment_type : M (string * Z) :=
  try_except
    (c <- is_container ;;
     if c then ret ("container", 2)
     else
       v <- is_vm ;;
       if v then ret ("vm", 1)
       else
         p <- detect_vm_windows ;;
         if truthy p then ret ("vm", 1)
         else ret ("hardware", 0))
    (except_Exception (fun e =>
       log ERROR ("Error detecting environment: " +:+ exn_str e) ;;;
       ret ("unknown", -1))).

End Detector.

(** ** The exporter *)

(** [ENVIRONMENT_TYPE.clear()]: drops every child. *)
Definition gauge_clear : M unit :=
  fun s => (Ret tt, with_gauge ∅ s).

(** [ENVIRONMENT_TYPE.labels(environment=name).set(value)]. *)
Definition gauge_set (name : string) (value : Z) : M unit :=
  fun s => (Ret tt, with_gauge (<[name := value]> (gauge s)) s).

(** The body of [update_metrics], with the call
    [detector.get_environment_type()] as a parameter: a test that
    simulates a fault of the classification replaces that method. *)
Definition update_metrics_with (classify : M (string * Z)) : M unit :=
  try_except
    (r <- classify ;;
     let env_name := fst r in
     let env_value := snd r in
     gauge_clear ;;;
     gauge_set env_name env_value ;;;
     log INFO ("Environment detected: " +:+ env_name
               +:+ " (value: " +:+ pretty env_value +:+ ")"))
    (except_Exception (fun e =>
       log ERROR ("Error updating metrics: " +:+ exn_str e) ;;;
       gauge_set "error" (-1))).

Section Exporter.

Variable w : world.

Definition update_metrics : M unit :=
  update_metrics_with (get_environment_type w).

(** [start_http_server(p)]. *)
Definition start_http_server (p : Z) : M unit :=
  fun s =>
    match bind_port w p with
    | None => (Ret tt, add_bind_call p true s)
    | Some e => (Raise (Exc e), add_bind_call p false s)
    end.

(** [input(prompt)]. *)
Definition input (prompt : string) : M string :=
  fun s =>
    let s' := add_stdout prompt s in
    match stdin w with
    | Line l => (Ret l, s')
    | EndOfFile => (Raise (Exc (MkExn EOFError "EOF when reading a line")), s')
    | Interrupt => (Raise KeyboardInterrupt, s')
    end.

Definition set_port (p : Z) : M unit :=
  fun s => (Ret tt, with_port p s).

Definition get_port : M Z :=
  fun s => (Ret (port s), s).

Definition main : M unit :=
  try_except
    (update_metrics ;;;
     set_port 8080 ;;;
     try_finally
       (try_except
          (p <- get_port ;; start_http_server p)
          (except_Exception (fun e =>
             set_port 8082 ;;;
             log WARNING "Switched server to port 8082" ;;;
             p <- get_port ;; start_http_server p)))
       (p <- get_port ;;
        log INFO ("Prometheus metrics server started on port " +:+ pretty p) ;;;
        log INFO ("Metrics available at: http://localhost:" +:+ pretty p
                  +:+ "/metrics")) ;;;
     _ <- input "Press any button to exit" ;;
     ret tt)
    (fun r =>
       match r with
       | KeyboardInterrupt => Some (log INFO "Shutting down..." ;;; sys_exit 0)
       | Exc e => Some (log ERROR ("Fatal error: " +:+ exn_str e) ;;; sys_exit 1)
       | SystemExit _ => None
       end).

(** The exit status of the interpreter once [main()] has run from the
    start-up state: 0 when it returns, the code of a [SystemExit], 1
    for an uncaught exception, 130 for an uncaught interrupt. *)
Definition exit_status (o : outcome unit) : Z :=
  match o with
  | Ret _ => 0
  | Raise (SystemExit c) => c
  | Raise (Exc _) => 1
  | Raise KeyboardInterrupt => 130
  end.

Definition run_process : Z * state :=
  let (o, s) := main init_state in (exit_status o, s).

End Exporter.

(** ** Behaviour of a computation *)

(** The probes touch nothing of the state but the log, and what they
    return does not depend on the state: [behaves P m] says so, and that
    the outcome satisfies [P]. *)
Definition behaves {A} (P : outcome A -> Prop) (m : M A) : Prop :=
  exists o l, P o /\ forall s, m s = (o, add_logs l s).

(** The outcome is a value. *)
Definition returned {A} (o : outcome A) : Prop :=
  match o with Ret _ => True | Raise _ => False end.

(** The outcome is a value or an instance of [Exception]. *)
Definition no_exit {A} (o : outcome A) : Prop :=
  match o with Ret _ | Raise (Exc _) => True | Raise _ => False end.


(** ** The container probe, step by step *)

(** The record [is_container] logs when reading a file fails. *)
Definition container_warning (e : exn) : log_record :=
  LogRecord WARNING ("Error checking container environment: " +:+ exn_str e).

(** The third step of [is_container] and what follows it. *)
Definition container_step3 (w : world) (s : state) : outcome bool * state :=
  (Ret (existsb (in_environ w) container_env_vars), s).

(** The second step of [is_container] and what follows it. *)
Definition container_step2 (w : world) (s : state) : outcome bool * state :=
  match fs w !! "/proc/self/cgroup" with
  | Some (ReadError e) => (Ret false, add_log (container_warning e) s)
  | Some (Content c) =>
      if Str.contains_any container_indicators (Str.lower c)
      then (Ret true, s) else container_step3 w s
  | None => container_step3 w s
  end.

(** ** Hosts used in the examples *)

Module Host.

(** No command can be launched: [subprocess.run] raises
    [FileNotFoundError]. *)
Definition no_command (args : list string) : run_result :=
  RunError (MkExn FileNotFoundError "[Errno 2] No such file or directory").

(** Only [cpuid] is found, and it may not be executed. *)
Definition cpuid_denied (args : list string) : run_result :=
  if decide (args = ["cpuid"])
  then RunError (MkExn PermissionError "[Errno 13] Permission denied: 'cpuid'")
  else no_command args.

Definition denied (path : string) : read_result :=
  ReadError (MkExn PermissionError ("[Errno 13] Permission denied: '" +:+ path +:+ "'")).

Definition every_port_free (p : Z) : option exn := None.

Definition in_use : exn := MkExn OSError "[Errno 98] Address already in use".

(** A pod of a cluster whose nodes are virtual machines. *)
Definition pod_on_vm : world :=
  {| fs := {[ "/proc/1/cgroup" := Content "12:devices:/kubepods/besteffort/pod123";
              "/proc/cpuinfo" := Content "flags : fpu vme de pse hypervisor" ]};
     environ := ∅;
     subprocess_run := no_command;
     bind_port := every_port_free;
     stdin := Interrupt |}.

(** A virtual machine on which [cpuid] is installed but not executable. *)
Definition vm_cpuid_denied : world :=
  {| fs := {[ "/proc/cpuinfo" := Content "flags : fpu vme de pse hypervisor" ]};
     environ := ∅;
     subprocess_run := cpuid_denied;
     bind_port := every_port_free;
     stdin := Interrupt |}.

End Host.

Module HostC.
Import Host.

(** Reading [/proc/1/cgroup] is denied; Docker's variable is set. *)
Definition cgroup_denied_docker_env : world :=
  {| fs := {[ "/proc/1/cgroup" := denied "/proc/1/cgroup" ]};
     environ := {[ "DOCKER_CONTAINER" := "true" ]};
     subprocess_run := no_command;
     bind_port := every_port_free;
     stdin := Interrupt |}.

(** Reading [/proc/1/cgroup] is denied; the process is in an LXC group. *)
Definition cgroup_denied_lxc : world :=
  {| fs := {[ "/proc/1/cgroup" := denied "/proc/1/cgroup";
              "/proc/self/cgroup" := Content "1:name=systemd:/lxc/web01" ]};
     environ := ∅;
     subprocess_run := no_command;
     bind_port := every_port_free;
     stdin := Interrupt |}.

End HostC.

Module HostH.
Import Host.

(** Bare metal: no cgroup file, no variable, no command, a clean
    [/proc/cpuinfo]. *)
Definition bare_metal : world :=
  {| fs := {[ "/proc/cpuinfo" := Content "model name : Some CPU @ 3.00GHz" ]};
     environ := {[ "HOME" := "/root" ]};
     subprocess_run := no_command;
     bind_port := every_port_free;
     stdin := Interrupt |}.

End HostH.

(** ** The vm probe, step by step *)

(** The classes the first [try] of [is_vm] catches. *)
Definition cpuid_caught : list exc_class :=
  [TimeoutExpired; CalledProcessError; FileNotFoundError].


(** The second sub-probe of [is_vm] and what follows it. *)
Definition vm_step2 (w : world) (s : state) : outcome bool * state :=
  match fs w !! "/proc/cpuinfo" with
  | Some (Content c) =>
      match Str.first_match vm_indicators (Str.lower c) with
      | Some x => (Ret true, add_log (LogRecord INFO x) s)
      | None => (Ret false, s)
      end
  | Some (ReadError e) =>
      (Ret false,
       add_log (LogRecord DEBUG ("Failed to read /proc/cpuinfo: " +:+ exn_str e)) s)
  | None =>
      (Ret false,
       add_log (LogRecord DEBUG
         "Failed to read /proc/cpuinfo: [Errno 2] No such file or directory: '/proc/cpuinfo'") s)
  end.

Module HostV.
Import Host.


End HostV.

(** ** Simulated classifications *)

(** A classification that throws, as a test would inject it in place of
    [get_environment_type]. *)
Definition simulated_fault : M (string * Z) :=
  raise (Exc (MkExn RuntimeError "simulated fault")).

(** The record [update_metrics] logs in its error branch. *)
Definition update_error (e : exn) : log_record :=
  LogRecord ERROR ("Error updating metrics: " +:+ exn_str e).

(** The record [update_metrics] logs after publishing. *)
Definition update_info (env_name : string) (env_value : Z) : log_record :=
  LogRecord INFO ("Environment detected: " +:+ env_name
                  +:+ " (value: " +:+ pretty env_value +:+ ")").

(** A host on which both ports are taken. *)
Module HostP.
Import Host.

Definition both_ports_taken : world :=
  {| fs := {[ "/proc/cpuinfo" := Content "model name : Some CPU @ 3.00GHz" ]};
     environ := ∅;
     subprocess_run := no_command;
     bind_port := fun p => Some in_use;
     stdin := Interrupt |}.

(** Port 8080 is taken, 8082 is free; the operator interrupts. *)
Definition port_8080_taken : world :=
  {| fs := {[ "/proc/cpuinfo" := Content "model name : Some CPU @ 3.00GHz" ]};
     environ := ∅;
     subprocess_run := no_command;
     bind_port := fun p => if p =? 8080 then Some in_use else None;
     stdin := Interrupt |}.

(** Both ports are free; standard input is closed. *)
Definition no_stdin : world :=
  {| fs := {[ "/proc/cpuinfo" := Content "model name : Some CPU @ 3.00GHz" ]};
     environ := ∅;
     subprocess_run := no_command;
     bind_port := every_port_free;
     stdin := EndOfFile |}.

End HostP.

(** ** Hosts that the probes cannot tell apart *)

(** What a read gives, with the letters of a content lower-cased. *)
Definition lower_read (r : read_result) : read_result :=
  match r with
  | Content c => Content (Str.lower c)
  | ReadError e => ReadError e
  end.

Module HostX.
Import Host.

(** A container whose cgroup file is spelled in capitals and whose
    [container] variable is set to the empty string. *)
Definition pod_capitals : world :=
  {| fs := {[ "/proc/self/cgroup" := Content "0::/System.Slice/LXC.payload" ]};
     environ := {[ "container" := "" ]};
     subprocess_run := no_command;
     bind_port := every_port_free;
     stdin := Interrupt |}.

(** The same container, in small letters, with another value. *)
Definition pod_small : world :=
  {| fs := {[ "/proc/self/cgroup" := Content "0::/system.slice/lxc.payload" ]};
     environ := {[ "container" := "lxc" ]};
     subprocess_run := cpuid_denied;
     bind_port := every_port_free;
     stdin := Interrupt |}.

(** [cpuid] prints a signature but exits with a non-zero status. *)
Definition cpuid_fails_loudly (args : list string) : run_result :=
  if decide (args = ["cpuid"])
  then Completed 1 "cpuid: failed on a KVM guest"
  else no_command args.

Definition cpuid_fails_quietly (args : list string) : run_result :=
  if decide (args = ["cpuid"])
  then Completed 2 ""
  else no_command args.

Definition bare_metal_loud : world :=
  {| fs := {[ "/proc/cpuinfo" := Content "model name : Some CPU @ 3.00GHz" ]};
     environ := ∅;
     subprocess_run := cpuid_fails_loudly;
     bind_port := every_port_free;
     stdin := Interrupt |}.

Definition bare_metal_quiet : world :=
  {| fs := {[ "/proc/cpuinfo" := Content "model name : Some CPU @ 3.00GHz" ]};
     environ := ∅;
     subprocess_run := cpuid_fails_quietly;
     bind_port := every_port_free;
     stdin := Interrupt |}.

(** [cpuid] runs on bare metal and reports the hypervisor bit as clear. *)
Definition cpuid_reports_no_guest (args : list string) : run_result :=
  if decide (args = ["cpuid"])
  then Completed 0 "   hypervisor guest status = false"
  else no_command args.

Definition bare_metal_with_cpuid : world :=
  {| fs := {[ "/proc/cpuinfo" := Content "model name : Some CPU @ 3.00GHz" ]};
     environ := ∅;
     subprocess_run := cpuid_reports_no_guest;
     bind_port := every_port_free;
     stdin := Interrupt |}.

End HostX.

(** ** Repeated updates *)

(** The state after calling [update_metrics] once for each element of
    [cs], the classification of the k-th call being the k-th element. *)
Definition updates (cs : list (M (string * Z))) (s : state) : state :=
  fold_left (fun s0 classify => snd (update_metrics_with classify s0)) cs s.

(** The gauge is empty, or holds one label, or one label and [error]. *)
Definition gauge_shape (g : gmap string Z) : Prop :=
  g = ∅ \/ exists n v, g = {[ n := v ]} \/ g = <[ "error" := -1 ]> {[ n := v ]}.
(** * Properties *)

(** ** Strings: what [in] computes *)

Module StrFacts.
Import Str.

Lemma startswith_app (p post : string) : startswith p (p ++ post)%string = true.
Proof.
  induction p as [|a p IH]; simpl; [done|].
  by rewrite Ascii.eqb_refl.
Qed.

Lemma startswith_inv (p s : string) :
  startswith p s = true -> exists post, s = (p ++ post)%string.
Proof.
  revert s; induction p as [|a p IH]; intros s H.
  - by exists s.
  - destruct s as [|b s]; simpl in H; [done|].
    destruct (Ascii.eqb a b) eqn:E; [|done].
    apply Ascii.eqb_eq in E; subst b.
    destruct (IH _ H) as [post ->]. by exists post.
Qed.

(** [p in s] holds exactly when [s] is [pre ++ p ++ post]. *)
Lemma contains_iff (p s : string) :
  contains p s = true <-> exists pre post, s = (pre ++ p ++ post)%string.
Proof.
  split.
  - induction s as [|c s IH]; simpl; intros H.
    + rewrite orb_false_r in H.
      apply startswith_inv in H as [post ->]. by exists EmptyString, post.
    + apply orb_true_iff in H as [H|H].
      * apply startswith_inv in H as [post ->]. by exists EmptyString, post.
      * destruct (IH H) as (pre & post & ->). by exists (String c pre), post.
  - intros (pre & post & ->).
    induction pre as [|c pre IH]; simpl.
    + destruct (p ++ post)%string eqn:E; simpl.
      * rewrite orb_false_r, <- E. apply startswith_app.
      * rewrite <- E, startswith_app. done.
    + rewrite IH. apply orb_true_r.
Qed.

Lemma contains_any_iff (ps : list string) (s : string) :
  contains_any ps s = true <-> exists p, p ∈ ps /\ contains p s = true.
Proof.
  unfold contains_any. rewrite existsb_exists.
  split; intros (p & H1 & H2); exists p; split; try done;
    by apply list_elem_of_In.
Qed.

Lemma first_match_contains_any (ps : list string) (s : string) :
  contains_any ps s = match first_match ps s with Some _ => true | None => false end.
Proof.
  unfold contains_any, first_match.
  induction ps as [|p ps IH]; simpl; [done|].
  destruct (contains p s); simpl; [done|apply IH].
Qed.

End StrFacts.

(** ** Computations that only log *)

Section Behaves.

Context {A B : Type}.

Lemma add_logs_nil (s : state) : add_logs [] s = s.
Proof. destruct s; unfold add_logs; simpl. by rewrite app_nil_r. Qed.

Lemma add_logs_app (l1 l2 : list log_record) (s : state) :
  add_logs l2 (add_logs l1 s) = add_logs (l1 ++ l2) s.
Proof. unfold add_logs; simpl. by rewrite app_assoc. Qed.

Lemma returned_no_exit (m : M A) : behaves returned m -> behaves no_exit m.
Proof.
  intros (o & l & Ho & H). exists o, l. split; [|done]. by destruct o.
Qed.

Lemma behaves_ret (P : outcome A -> Prop) (a : A) :
  P (Ret a) -> behaves P (ret a).
Proof.
  intros HP. exists (Ret a), []. split; [done|].
  intros s. by rewrite add_logs_nil.
Qed.

Lemma behaves_raise_Exc (e : exn) : behaves (@no_exit A) (raise (Exc e)).
Proof.
  exists (Raise (Exc e)), []. split; [done|].
  intros s. by rewrite add_logs_nil.
Qed.

Lemma behaves_bind_returned (m : M A) (k : A -> M B) :
  behaves returned m -> (forall a, behaves returned (k a)) ->
  behaves returned (bind m k).
Proof.
  intros (o & l & Ho & Hm) Hk. destruct o as [a|r]; [|done].
  destruct (Hk a) as (o' & l' & Ho' & Hka).
  exists o', (l ++ l'). split; [done|].
  intros s. unfold bind. by rewrite Hm, Hka, add_logs_app.
Qed.

Lemma behaves_bind_no_exit (m : M A) (k : A -> M B) :
  behaves no_exit m -> (forall a, behaves no_exit (k a)) ->
  behaves no_exit (bind m k).
Proof.
  intros (o & l & Ho & Hm) Hk. destruct o as [a|r].
  - destruct (Hk a) as (o' & l' & Ho' & Hka).
    exists o', (l ++ l'). split; [done|].
    intros s. unfold bind. by rewrite Hm, Hka, add_logs_app.
  - exists (Raise r), l. split; [done|].
    intros s. unfold bind. by rewrite Hm.
Qed.

(** [except Exception] around a body that raises at most an
    [Exception], with a handler that returns: the whole returns. *)
Lemma behaves_try_except_Exception (body : M A) (h : exn -> M A) :
  behaves no_exit body -> (forall e, behaves returned (h e)) ->
  behaves returned (try_except body (except_Exception h)).
Proof.
  intros (o & l & Ho & Hm) Hh. destruct o as [a|[e| |c]]; try done.
  - exists (Ret a), l. split; [done|].
    intros s. unfold try_except. by rewrite Hm.
  - destruct (Hh e) as (o' & l' & Ho' & Hhe).
    exists o', (l ++ l'). split; [done|].
    intros s. unfold try_except. rewrite Hm. simpl.
    by rewrite Hhe, add_logs_app.
Qed.

(** [except (C1, ..., Cn)]: what is not listed goes through. *)
Lemma behaves_try_except_classes (body : M A) (cs : list exc_class) (h : M A) :
  behaves no_exit body -> behaves no_exit h ->
  behaves no_exit (try_except body (except_classes cs h)).
Proof.
  intros (o & l & Ho & Hm) (o' & l' & Ho' & Hh).
  destruct o as [a|[e| |c]]; try done.
  - exists (Ret a), l. split; [done|].
    intros s. unfold try_except. by rewrite Hm.
  - destruct (existsb (exc_class_eqb (exn_class e)) cs) eqn:E.
    + exists o', (l ++ l'). split; [done|].
      intros s. unfold try_except. rewrite Hm. simpl. rewrite E.
      by rewrite Hh, add_logs_app.
    + exists (Raise (Exc e)), l. split; [done|].
      intros s. unfold try_except. rewrite Hm. simpl. by rewrite E.
Qed.

End Behaves.

Lemma behaves_log (P : outcome unit -> Prop) (lv : level) (msg : string) :
  P (Ret tt) -> behaves P (log lv msg).
Proof. intros HP. by exists (Ret tt), [LogRecord lv msg]. Qed.


(** ** The probes only log *)

(** Case analysis on the condition of the [if] in the goal. *)
Ltac case_cond :=
  match goal with
  | |- context [if ?b then _ else _] => destruct b eqn:?
  end.

Section Probes.

Variable w : world.

Lemma read_file_no_exit (path : string) : behaves no_exit (read_file w path).
Proof.
  unfold read_file.
  destruct (fs w !! path) as [[c|e]|];
    [by apply behaves_ret | apply behaves_raise_Exc | apply behaves_raise_Exc].
Qed.

Lemma run_no_exit (args : list string) : behaves no_exit (run w args).
Proof.
  unfold run.
  destruct (subprocess_run w args) as [rc out|e];
    [by apply behaves_ret | apply behaves_raise_Exc].
Qed.

Lemma scan_returned (xs : list string) (s : string) : behaves returned (scan xs s).
Proof.
  unfold scan. destruct (Str.first_match xs s).
  - apply behaves_bind_returned; [by apply behaves_log|].
    intros _. by apply behaves_ret.
  - by apply behaves_ret.
Qed.

(** [is_container] always returns. *)
Lemma is_container_returned : behaves returned (is_container w).
Proof.
  unfold is_container.
  apply behaves_bind_returned.
  - apply behaves_try_except_Exception.
    + apply behaves_bind_no_exit.
      * destruct (path_exists w "/proc/1/cgroup"); [|by apply behaves_ret].
        apply behaves_bind_no_exit; [apply read_file_no_exit|].
        intros c. simpl.
        by case_cond; apply behaves_ret.
      * intros [v|]; [by apply behaves_ret|].
        apply behaves_bind_no_exit.
        -- destruct (path_exists w "/proc/self/cgroup"); [|by apply behaves_ret].
           apply behaves_bind_no_exit; [apply read_file_no_exit|].
           intros c. simpl.
           by case_cond; apply behaves_ret.
        -- intros [v|]; [by apply behaves_ret|].
           by case_cond; apply behaves_ret.
    + intros e. apply behaves_bind_returned; [by apply behaves_log|].
      intros _. by apply behaves_ret.
  - intros [v|]; by apply behaves_ret.
Qed.

(** [is_vm] returns or raises an [Exception]. *)
Lemma is_vm_no_exit : behaves no_exit (is_vm w).
Proof.
  unfold is_vm.
  apply behaves_bind_no_exit.
  - apply behaves_try_except_classes.
    + apply behaves_bind_no_exit; [apply run_no_exit|].
      intros [rc out]. simpl.
      destruct (rc =? 0); [|by apply behaves_ret].
      apply returned_no_exit, scan_returned.
    + apply behaves_bind_no_exit; [by apply behaves_log|].
      intros _. by apply behaves_ret.
  - intros [v|]; [by apply behaves_ret|]. simpl.
    apply returned_no_exit, behaves_bind_returned.
    + apply behaves_try_except_Exception.
      * apply behaves_bind_no_exit; [apply read_file_no_exit|].
        intros c. apply returned_no_exit, scan_returned.
      * intros e. apply behaves_bind_returned; [by apply behaves_log|].
        intros _. by apply behaves_ret.
    + intros [v|]; by apply behaves_ret.
Qed.

(** [detect_vm_windows] always returns. *)
Lemma detect_vm_windows_returned : behaves returned (detect_vm_windows w).
Proof.
  unfold detect_vm_windows.
  apply behaves_bind_returned.
  - apply behaves_try_except_Exception.
    + apply behaves_bind_no_exit; [apply run_no_exit|].
      intros [rc out]. simpl.
      destruct (rc =? 0); [|by apply behaves_ret].
      apply returned_no_exit, scan_returned.
    + intros e. apply behaves_bind_returned; [by apply behaves_log|].
      intros _. by apply behaves_ret.
  - intros [v|]; by apply behaves_ret.
Qed.

(** [get_environment_type] always returns. *)
Lemma get_environment_type_returned : behaves returned (get_environment_type w).
Proof.
  unfold get_environment_type.
  apply behaves_try_except_Exception.
  - apply behaves_bind_no_exit; [apply returned_no_exit, is_container_returned|].
    intros [|]; [by apply behaves_ret|].
    apply behaves_bind_no_exit; [apply is_vm_no_exit|].
    intros [|]; [by apply behaves_ret|].
    apply behaves_bind_no_exit; [apply returned_no_exit, detect_vm_windows_returned|].
    intros p. by destruct (truthy p); apply behaves_ret.
  - intros e. apply behaves_bind_returned; [by apply behaves_log|].
    intros _. by apply behaves_ret.
Qed.

End Probes.


(** ** Classification *)




(** C2. [get_environment_type] never raises: on every host and from
    every state it returns one of the four classifications, and a fault
    that escapes the probes (the only probe that lets one out is
    [is_vm]) is caught, logged at error level and turned into
    [("unknown", -1)]. *)
Theorem get_environment_type_never_raises (w : world) (s : state) :
  (exists r s',
     get_environment_type w s = (Ret r, s') /\
     r ∈ [("container", 2); ("vm", 1); ("hardware", 0); ("unknown", -1)]) /\
  (forall e s1 s2,
     is_container w s = (Ret false, s1) ->
     is_vm w s1 = (Raise (Exc e), s2) ->
     get_environment_type w s =
       (Ret ("unknown", -1),
        add_log (LogRecord ERROR ("Error detecting environment: " +:+ exn_str e)) s2)).
Proof.
  split.
  - destruct (is_container_returned w) as (oc & lc & Hoc & Hc).
    destruct (is_vm_no_exit w) as (ov & lv & Hov & Hv).
    destruct (detect_vm_windows_returned w) as (op & lp & Hop & Hp).
    destruct oc as [c|]; [|done]. destruct op as [p|]; [|done].
    unfold get_environment_type, try_except, bind. rewrite Hc.
    destruct c; [eexists _, _; split; [done|set_solver]|].
    rewrite Hv. destruct ov as [[|]|[e| |c]]; try done.
    + eexists _, _; split; [done|set_solver].
    + rewrite Hp. destruct (truthy p); eexists _, _; (split; [done|set_solver]).
    + simpl. eexists _, _; split; [done|set_solver].
  - intros e s1 s2 H1 H2.
    unfold get_environment_type, try_except, bind. by rewrite H1, H2.
Qed.

Lemma get_environment_type_never_raises_witness :
  get_environment_type Host.vm_cpuid_denied init_state =
    (Ret ("unknown", -1),
     add_log (LogRecord ERROR "Error detecting environment: [Errno 13] Permission denied: 'cpuid'")
       init_state).
Proof.
  apply (proj2 (get_environment_type_never_raises Host.vm_cpuid_denied init_state)
           (MkExn PermissionError "[Errno 13] Permission denied: 'cpuid'")
           init_state init_state);
    vm_compute; reflexivity.
Defined.


(** ** The container probe *)

Lemma cgroup_1_chain (c : string) :
  Str.contains "docker" c || Str.contains "containerd" c || Str.contains "kubepods" c
  = Str.contains_any cgroup_1_signatures c.
Proof.
  unfold Str.contains_any, cgroup_1_signatures, existsb.
  by rewrite orb_false_r, orb_assoc.
Qed.

(** [is_container], step by step. *)
Lemma is_container_steps (w : world) (s : state) :
  is_container w s =
    match fs w !! "/proc/1/cgroup" with
    | Some (ReadError e) => (Ret false, add_log (container_warning e) s)
    | Some (Content c) =>
        if Str.contains_any cgroup_1_signatures (Str.lower c)
        then (Ret true, s) else container_step2 w s
    | None => container_step2 w s
    end.
Proof.
  unfold is_container, container_step2, container_step3, container_warning,
    try_except, bind, path_exists, read_file, or_else, except_Exception,
    log, ret, raise.
  destruct (fs w !! "/proc/1/cgroup") as [[c|e]|];
    destruct (fs w !! "/proc/self/cgroup") as [[c'|e']|];
    cbv beta iota; try rewrite cgroup_1_chain;
    repeat (case_cond; cbv beta iota); done.
Qed.

(** C3 does not hold as stated: reading [/proc/1/cgroup] is
    denied and [DOCKER_CONTAINER] is set, yet [is_container] returns
    false. The one [try] block spans the three steps, so the failure of
    a read leaves all of them. *)
Lemma is_container_read_failure_counterexample :
  fs HostC.cgroup_denied_docker_env !! "/proc/1/cgroup"
    = Some (Host.denied "/proc/1/cgroup") /\
  in_environ HostC.cgroup_denied_docker_env "DOCKER_CONTAINER" = true /\
  fst (is_container HostC.cgroup_denied_docker_env init_state) = Ret false /\
  fst (is_container HostC.cgroup_denied_docker_env init_state) <> Ret true.
Proof. vm_compute. repeat split; congruence. Qed.

(** C3, amended. A failure to read one of the cgroup files is caught and
    logged at warning level, and it ends the detection: [is_container]
    returns false without taking the remaining steps, whatever the
    environment variables are. *)
Theorem is_container_read_failure_returns_false (w : world) (s : state) (e : exn) :
  fs w !! "/proc/1/cgroup" = Some (ReadError e) \/
  ((fs w !! "/proc/1/cgroup" = None \/
    exists c, fs w !! "/proc/1/cgroup" = Some (Content c) /\
              Str.contains_any cgroup_1_signatures (Str.lower c) = false) /\
   fs w !! "/proc/self/cgroup" = Some (ReadError e)) ->
  is_container w s = (Ret false, add_log (container_warning e) s).
Proof.
  rewrite is_container_steps.
  intros [H1|[[H1|(c & H1 & Hc)] H2]]; rewrite H1.
  - done.
  - unfold container_step2. by rewrite H2.
  - rewrite Hc. unfold container_step2. by rewrite H2.
Qed.

Lemma is_container_read_failure_returns_false_witness :
  is_container HostC.cgroup_denied_docker_env init_state =
    (Ret false,
     add_log (LogRecord WARNING
       "Error checking container environment: [Errno 13] Permission denied: '/proc/1/cgroup'")
       init_state).
Proof.
  apply (is_container_read_failure_returns_false HostC.cgroup_denied_docker_env init_state
           (MkExn PermissionError "[Errno 13] Permission denied: '/proc/1/cgroup'")).
  left. vm_compute. reflexivity.
Defined.

Lemma container_env_vars_set (w : world) :
  existsb (in_environ w) container_env_vars = true <->
  exists v, v ∈ container_env_vars /\ is_Some (environ w !! v).
Proof.
  rewrite existsb_exists. unfold in_environ.
  split; intros (v & Hv & H); exists v; (split; [by apply list_elem_of_In|]).
  - by destruct (environ w !! v).
  - by destruct H as [x ->].
Qed.

(** C5 does not hold as stated: [/proc/self/cgroup] names an LXC
    group, but reading [/proc/1/cgroup] is denied first, and
    [is_container] returns false. *)
Lemma is_container_characterisation_counterexample :
  fs HostC.cgroup_denied_lxc !! "/proc/self/cgroup"
    = Some (Content "1:name=systemd:/lxc/web01") /\
  Str.contains "lxc" (Str.lower "1:name=systemd:/lxc/web01") = true /\
  fst (is_container HostC.cgroup_denied_lxc init_state) = Ret false /\
  fst (is_container HostC.cgroup_denied_lxc init_state) <> Ret true.
Proof. vm_compute. repeat split; congruence. Qed.

(** C5, amended. [is_container] returns true when [/proc/1/cgroup] is
    read and its lower-cased content has one of its signatures; when
    reading [/proc/1/cgroup] does not fail and [/proc/self/cgroup] is
    read and its lower-cased content has one of its signatures; and when
    reading neither file fails and one of the three variables is set. It
    returns false whenever neither file exists or matches and none of
    the three variables is set. *)
Theorem is_container_characterisation (w : world) (s : state) :
  (forall c p,
     fs w !! "/proc/1/cgroup" = Some (Content c) ->
     p ∈ cgroup_1_signatures -> Str.contains p (Str.lower c) = true ->
     fst (is_container w s) = Ret true) /\
  (forall c p,
     (forall e, fs w !! "/proc/1/cgroup" <> Some (ReadError e)) ->
     fs w !! "/proc/self/cgroup" = Some (Content c) ->
     p ∈ container_indicators -> Str.contains p (Str.lower c) = true ->
     fst (is_container w s) = Ret true) /\
  (forall v,
     (forall e, fs w !! "/proc/1/cgroup" <> Some (ReadError e)) ->
     (forall e, fs w !! "/proc/self/cgroup" <> Some (ReadError e)) ->
     v ∈ container_env_vars -> is_Some (environ w !! v) ->
     fst (is_container w s) = Ret true) /\
  ((forall c p,
      fs w !! "/proc/1/cgroup" = Some (Content c) ->
      p ∈ cgroup_1_signatures -> Str.contains p (Str.lower c) = false) ->
   (forall c p,
      fs w !! "/proc/self/cgroup" = Some (Content c) ->
      p ∈ container_indicators -> Str.contains p (Str.lower c) = false) ->
   (forall v, v ∈ container_env_vars -> environ w !! v = None) ->
   fst (is_container w s) = Ret false).
Proof.
  pose proof (fun ps c => proj2 (StrFacts.contains_any_iff ps c)) as Many.
  pose proof (container_env_vars_set w) as M3.
  rewrite is_container_steps. unfold container_step2, container_step3.
  repeat split.
  - intros c p H1 Hp Hc. rewrite H1.
    by rewrite (Many _ _ (ex_intro _ p (conj Hp Hc))).
  - intros c p H1 H2 Hp Hc.
    pose proof (Many _ _ (ex_intro _ p (conj Hp Hc))) as Hm.
    destruct (fs w !! "/proc/1/cgroup") as [[c1|e]|].
    + case_cond; [done|]. by rewrite H2, Hm.
    + by destruct (H1 e).
    + by rewrite H2, Hm.
  - intros v H1 H2 Hv Hset.
    pose proof (proj2 M3 (ex_intro _ v (conj Hv Hset))) as Hm.
    destruct (fs w !! "/proc/1/cgroup") as [[c1|e]|]; [|by destruct (H1 e)|];
      destruct (fs w !! "/proc/self/cgroup") as [[c2|e]|];
      repeat case_cond; try done; try by destruct (H2 e).
    all: by rewrite Hm.
  - intros H1 H2 H3.
    assert (Hm : existsb (in_environ w) container_env_vars = false).
    { apply not_true_is_false. intros (v & Hv & [x Hx])%M3.
      by rewrite (H3 v Hv) in Hx. }
    destruct (fs w !! "/proc/1/cgroup") as [[c1|e]|]; [|done|];
      destruct (fs w !! "/proc/self/cgroup") as [[c2|e]|];
      repeat case_cond; try done; try by rewrite Hm.
    all: match goal with
         | H : Str.contains_any cgroup_1_signatures _ = true |- _ =>
             apply StrFacts.contains_any_iff in H as (p & Hp & Hc);
             by rewrite (H1 _ p eq_refl Hp) in Hc
         | H : Str.contains_any container_indicators _ = true |- _ =>
             apply StrFacts.contains_any_iff in H as (p & Hp & Hc);
             by rewrite (H2 _ p eq_refl Hp) in Hc
         end.
Qed.

Lemma is_container_characterisation_witness :
  fst (is_container Host.pod_on_vm init_state) = Ret true /\
  fst (is_container HostH.bare_metal init_state) = Ret false.
Proof.
  split.
  - apply (proj1 (is_container_characterisation Host.pod_on_vm init_state)
             "12:devices:/kubepods/besteffort/pod123" "kubepods").
    + vm_compute. reflexivity.
    + unfold cgroup_1_signatures. set_solver.
    + vm_compute. reflexivity.
  - apply (proj2 (proj2 (proj2
             (is_container_characterisation HostH.bare_metal init_state)))).
    + intros c p H. vm_compute in H. discriminate.
    + intros c p H. vm_compute in H. discriminate.
    + intros v Hv. unfold container_env_vars in Hv.
      repeat (apply elem_of_cons in Hv as [->|Hv]; [vm_compute; reflexivity|]).
      by apply elem_of_nil in Hv.
Defined.

(** The lower-casing takes the Kelvin sign for a [k] and the dotted
    capital I for an [i], as Python does: a cgroup path spelled with
    them is matched. *)
Lemma lower_kelvin_dotted_I :
  Str.lower "0::/DOCKER/abc" = "0::/docker/abc" /\
  Str.contains "docker" (Str.lower "0::/DOCKER/abc") = true /\
  Str.lower "LİNUX" = "li̇nux" /\
  Str.contains "kvm" (Str.lower "KVM") = true.
Proof. vm_compute. repeat split. Qed.


(** ** The vm probe *)

Lemma cpuid_caught_iff (e : exn) :
  existsb (exc_class_eqb (exn_class e)) cpuid_caught = true <->
  exn_class e ∈ cpuid_caught.
Proof.
  split.
  - intros (c & Hin & Heq)%existsb_exists. apply list_elem_of_In.
    by destruct (exn_class e), c.
  - intros H. apply existsb_exists. exists (exn_class e).
    split; [by apply list_elem_of_In | by destruct (exn_class e)].
Qed.

(** [is_vm], step by step. *)
Lemma is_vm_steps (w : world) (s : state) :
  is_vm w s =
    match subprocess_run w ["cpuid"] with
    | Completed rc out =>
        if rc =? 0 then
          match Str.first_match vm_signatures (Str.lower out) with
          | Some x => (Ret true, add_log (LogRecord INFO x) s)
          | None => vm_step2 w s
          end
        else vm_step2 w s
    | RunError e =>
        if existsb (exc_class_eqb (exn_class e)) cpuid_caught
        then vm_step2 w
               (add_log (LogRecord DEBUG "cpuid command not available or failed") s)
        else (Raise (Exc e), s)
    end.
Proof.
  unfold is_vm, vm_step2, scan, run, try_except, bind, read_file, or_else,
    except_Exception, except_classes, log, ret, raise.
  fold cpuid_caught.
  destruct (subprocess_run w ["cpuid"]) as [rc out|e];
    destruct (fs w !! "/proc/cpuinfo") as [[c|e']|];
    cbv beta iota; unfold fst, snd; cbv beta iota;
    repeat (case_cond; cbv beta iota);
    repeat (match goal with
            | |- context [Str.first_match ?a ?b] => destruct (Str.first_match a b)
            end; cbv beta iota);
    done.
Qed.


Lemma first_match_some (ps : list string) (c p : string) :
  p ∈ ps -> Str.contains p c = true -> is_Some (Str.first_match ps c).
Proof.
  intros Hp Hc. pose proof (StrFacts.first_match_contains_any ps c) as E.
  rewrite (proj2 (StrFacts.contains_any_iff ps c) (ex_intro _ p (conj Hp Hc))) in E.
  by destruct (Str.first_match ps c).
Qed.





(** ** The Windows vm probe *)

(** [detect_vm_windows], step by step. *)
Lemma detect_vm_windows_steps (w : world) (s : state) :
  detect_vm_windows w s =
    match subprocess_run w wmic_args with
    | Completed rc out =>
        if rc =? 0 then
          match Str.first_match windows_vm_indicators (Str.lower out) with
          | Some x => (Ret (PyBool true), add_log (LogRecord INFO x) s)
          | None => (Ret PyNone, s)
          end
        else (Ret PyNone, s)
    | RunError e =>
        (Ret PyNone,
         add_log (LogRecord DEBUG ("WMI detection failed: " +:+ exn_str e)) s)
    end.
Proof.
  unfold detect_vm_windows, scan, run, try_except, bind, except_Exception,
    log, ret, raise.
  destruct (subprocess_run w wmic_args) as [rc out|e];
    cbv beta iota; unfold fst, snd; cbv beta iota; [|done].
  case_cond; cbv beta iota; [|done].
  by destruct (Str.first_match _ _).
Qed.

(** C9. [detect_vm_windows] never raises; what it returns is [True] or
    [None], never [False]: [True] exactly when the command exits with 0
    and its lower-cased output has one of the indicators, [None] when no
    indicator matches or the command fails. [get_environment_type] takes
    [None] as a negative answer and goes on to [("hardware", 0)]. *)
Theorem detect_vm_windows_none_or_true (w : world) (s : state) :
  (exists v s',
     detect_vm_windows w s = (Ret v, s') /\ (v = PyBool true \/ v = PyNone)) /\
  (fst (detect_vm_windows w s) = Ret (PyBool true) <->
   exists out p,
     subprocess_run w wmic_args = Completed 0 out /\
     p ∈ windows_vm_indicators /\ Str.contains p (Str.lower out) = true) /\
  (forall s0 s1 s2 s3,
     is_container w s0 = (Ret false, s1) ->
     is_vm w s1 = (Ret false, s2) ->
     detect_vm_windows w s2 = (Ret PyNone, s3) ->
     get_environment_type w s0 = (Ret ("hardware", 0), s3)).
Proof.
  split; [|split].
  - rewrite detect_vm_windows_steps.
    destruct (subprocess_run w wmic_args) as [rc out|e]; [|by eauto].
    case_cond; [|by eauto].
    destruct (Str.first_match _ _); by eauto.
  - rewrite detect_vm_windows_steps. split.
    + destruct (subprocess_run w wmic_args) as [rc out|e]; [|done].
      case_cond; [|done]. apply Z.eqb_eq in Heqb; subst rc.
      pose proof (StrFacts.first_match_contains_any
                    windows_vm_indicators (Str.lower out)) as E.
      destruct (Str.first_match _ _); [|done]. intros _.
      apply StrFacts.contains_any_iff in E as (p & Hp & Hc).
      by exists out, p.
    + intros (out & p & -> & Hp & Hc). rewrite Z.eqb_refl.
      by destruct (first_match_some _ _ _ Hp Hc) as [x ->].
  - intros s0 s1 s2 s3 H1 H2 H3.
    unfold get_environment_type, try_except, bind. by rewrite H1, H2, H3.
Qed.

Lemma detect_vm_windows_none_or_true_witness :
  get_environment_type HostH.bare_metal init_state =
    (Ret ("hardware", 0),
     snd (detect_vm_windows HostH.bare_metal
            (snd (is_vm HostH.bare_metal init_state)))).
Proof.
  apply (proj2 (proj2 (detect_vm_windows_none_or_true HostH.bare_metal init_state))
           init_state init_state (snd (is_vm HostH.bare_metal init_state)));
    vm_compute; reflexivity.
Defined.


(** ** The gauge *)

(** When the classification returns, [update_metrics] leaves the gauge
    with the one label of the result. *)
Lemma update_metrics_with_returns (classify : M (string * Z)) (s s1 : state)
    (env_name : string) (env_value : Z) :
  classify s = (Ret (env_name, env_value), s1) ->
  update_metrics_with classify s =
    (Ret tt, add_log (update_info env_name env_value)
               (with_gauge {[ env_name := env_value ]} s1)).
Proof.
  intros H. unfold update_metrics_with, try_except, bind. rewrite H.
  unfold gauge_clear, gauge_set, log, update_info, with_gauge, add_log, add_logs.
  simpl. by rewrite insert_empty.
Qed.

(** C8. When the classification called in [update_metrics] throws an
    exception, [update_metrics] catches it, logs the failure at error
    level, sets the label [error] of the gauge to -1 and returns: the
    exception goes no further. *)
Theorem update_metrics_with_fault (classify : M (string * Z)) (s s1 : state) (e : exn) :
  classify s = (Raise (Exc e), s1) ->
  exists s2,
    update_metrics_with classify s = (Ret tt, s2) /\
    gauge s2 !! "error" = Some (-1) /\
    gauge s2 = <[ "error" := -1 ]> (gauge s1) /\
    logs s2 = logs s1 ++ [update_error e].
Proof.
  intros H. unfold update_metrics_with, try_except, bind. rewrite H.
  eexists. split; [reflexivity|]. simpl.
  split; [apply lookup_insert_eq|done].
Qed.

Lemma update_metrics_with_fault_witness :
  exists s2,
    update_metrics_with simulated_fault init_state = (Ret tt, s2) /\
    gauge s2 !! "error" = Some (-1) /\
    gauge s2 = <[ "error" := -1 ]> (gauge init_state) /\
    logs s2 = logs init_state
              ++ [update_error (MkExn RuntimeError "simulated fault")].
Proof.
  apply (update_metrics_with_fault simulated_fault init_state init_state
           (MkExn RuntimeError "simulated fault")).
  reflexivity.
Defined.

(** With the detector of the program, whose classification always
    returns, every call of [update_metrics] leaves exactly one label,
    and touches nothing else than the gauge and the log. *)
Lemma update_metrics_single_label (w : world) :
  exists env_name env_value l,
    forall s, update_metrics w s =
                (Ret tt, add_logs l (with_gauge {[ env_name := env_value ]} s)).
Proof.
  destruct (get_environment_type_returned w) as (o & l & Ho & H).
  destruct o as [[n v]|]; [|done].
  exists n, v, (l ++ [update_info n v]). intros s.
  unfold update_metrics. rewrite (update_metrics_with_returns _ s _ n v (H s)).
  unfold add_log, add_logs, with_gauge. simpl. by rewrite <- app_assoc.
Qed.



(** ** Start-up *)

(** Computes the fields of a state. *)
Ltac fields :=
  cbn [port with_port add_log add_logs add_bind_call add_stdout with_gauge
       bind_calls listening logs gauge stdout init_state fst snd exit_status].

(** Unfolds [main] down to the calls on the host, after the one call of
    [update_metrics]. *)
Ltac run_main w :=
  let n := fresh "env_name" in
  let v := fresh "env_value" in
  let l := fresh "l" in
  let Hu := fresh "Hu" in
  destruct (update_metrics_single_label w) as (n & v & l & Hu);
  unfold run_process, main, try_except, try_finally, bind;
  rewrite Hu;
  unfold except_Exception, start_http_server, input, set_port, get_port,
    log, sys_exit, raise, ret;
  fields.

(** Case analysis on what the host answers to the next call. *)
Ltac next_call :=
  match goal with
  | |- context [bind_port ?w 8080] => destruct (bind_port w 8080) eqn:?
  | |- context [bind_port ?w 8082] => destruct (bind_port w 8082) eqn:?
  | |- context [stdin ?w] => destruct (stdin w) eqn:?
  end; fields.

(** C7. The start-up binds port 8080 first; when that fails it tries
    port 8082 once and nothing more; when both fail the failure reaches
    the handler of fatal errors and the process exits with status 1;
    an interrupt while the server runs exits with status 0. *)
Theorem main_port_fallback (w : world) :
  (exists rest, bind_calls (snd (run_process w)) = 8080 :: rest) /\
  (bind_port w 8080 = None ->
   bind_calls (snd (run_process w)) = [8080] /\
   listening (snd (run_process w)) = [8080]) /\
  (forall e,
     bind_port w 8080 = Some e ->
     bind_calls (snd (run_process w)) = [8080; 8082]) /\
  (forall e,
     bind_port w 8080 = Some e -> bind_port w 8082 = None ->
     listening (snd (run_process w)) = [8082]) /\
  (forall e1 e2,
     bind_port w 8080 = Some e1 -> bind_port w 8082 = Some e2 ->
     fst (run_process w) = 1 /\ fst (run_process w) <> 0 /\
     listening (snd (run_process w)) = [] /\
     last (logs (snd (run_process w)))
       = Some (LogRecord ERROR ("Fatal error: " +:+ exn_str e2))) /\
  (bind_port w 8080 = None \/ bind_port w 8082 = None ->
   stdin w = Interrupt ->
   fst (run_process w) = 0).
Proof.
  split; [|split; [|split; [|split; [|split]]]].
  - run_main w. repeat next_call; by eexists.
  - intros H. run_main w. rewrite H. fields. by next_call.
  - intros e H. run_main w. rewrite H. fields. by repeat next_call.
  - intros e H1 H2. run_main w. rewrite H1. fields. rewrite H2. fields.
    by next_call.
  - intros e1 e2 H1 H2. run_main w. rewrite H1. fields. rewrite H2. fields.
    repeat split; [done|]. by rewrite last_snoc.
  - intros H Hi. run_main w. destruct H as [H|H].
    + rewrite H. fields. by rewrite Hi.
    + next_call; [rewrite H; fields|]; by rewrite Hi.
Qed.

Lemma main_port_fallback_witness :
  (fst (run_process HostP.both_ports_taken) = 1 /\
   fst (run_process HostP.both_ports_taken) <> 0 /\
   listening (snd (run_process HostP.both_ports_taken)) = [] /\
   last (logs (snd (run_process HostP.both_ports_taken)))
     = Some (LogRecord ERROR "Fatal error: [Errno 98] Address already in use")) /\
  bind_calls (snd (run_process HostP.port_8080_taken)) = [8080; 8082] /\
  fst (run_process HostP.port_8080_taken) = 0.
Proof.
  split; [|split].
  - apply (proj1 (proj2 (proj2 (proj2 (proj2
             (main_port_fallback HostP.both_ports_taken)))))
             Host.in_use Host.in_use); reflexivity.
  - apply (proj1 (proj2 (proj2 (main_port_fallback HostP.port_8080_taken)))
             Host.in_use); reflexivity.
  - apply (proj2 (proj2 (proj2 (proj2 (proj2
             (main_port_fallback HostP.port_8080_taken)))))).
    + right. reflexivity.
    + reflexivity.
Defined.

(** C10. When the start-up succeeded (the gauge is published and a port
    is bound) and standard input is at end of file, [input] raises
    [EOFError], the handler of fatal errors takes it, and the process
    exits with status 1, not 0. *)
Theorem main_eof_exits_1 (w : world) :
  bind_port w 8080 = None \/ bind_port w 8082 = None ->
  stdin w = EndOfFile ->
  fst (run_process w) = 1 /\
  fst (run_process w) <> 0 /\
  (exists env_name env_value,
     gauge (snd (run_process w)) = {[ env_name := env_value ]}) /\
  (listening (snd (run_process w)) = [8080] \/
   listening (snd (run_process w)) = [8082]) /\
  last (logs (snd (run_process w)))
    = Some (LogRecord ERROR "Fatal error: EOF when reading a line").
Proof.
  intros H Hi. run_main w. destruct H as [H|H].
  - rewrite H. fields. rewrite Hi. fields.
    repeat split; [done|by eauto|by left|by rewrite last_snoc].
  - next_call; [rewrite H; fields|]; rewrite Hi; fields.
    + repeat split; [done|by eauto|by right|by rewrite last_snoc].
    + repeat split; [done|by eauto|by left|by rewrite last_snoc].
Qed.

Lemma main_eof_exits_1_witness :
  fst (run_process HostP.no_stdin) = 1 /\
  fst (run_process HostP.no_stdin) <> 0 /\
  (exists env_name env_value,
     gauge (snd (run_process HostP.no_stdin)) = {[ env_name := env_value ]}) /\
  (listening (snd (run_process HostP.no_stdin)) = [8080] \/
   listening (snd (run_process HostP.no_stdin)) = [8082]) /\
  last (logs (snd (run_process HostP.no_stdin)))
    = Some (LogRecord ERROR "Fatal error: EOF when reading a line").
Proof.
  apply (main_eof_exits_1 HostP.no_stdin).
  - left. reflexivity.
  - reflexivity.
Defined.


(** * Further properties *)

(** ** The container probe *)

(** [is_container] looks at the host only through the two cgroup files
    and the names of the environment variables. *)
Lemma is_container_ext (w w' : world) (s : state) :
  fs w !! "/proc/1/cgroup" = fs w' !! "/proc/1/cgroup" ->
  fs w !! "/proc/self/cgroup" = fs w' !! "/proc/self/cgroup" ->
  (forall v, in_environ w v = in_environ w' v) ->
  is_container w s = is_container w' s.
Proof.
  intros H1 H2 H3. rewrite !is_container_steps.
  unfold container_step2, container_step3. rewrite H1, H2.
  unfold container_env_vars, existsb. by rewrite !H3.
Qed.

(** When [is_container] returns true it has logged nothing. *)
Lemma is_container_true_silent (w : world) (s : state) :
  fst (is_container w s) = Ret true -> is_container w s = (Ret true, s).
Proof.
  rewrite is_container_steps. unfold container_step2, container_step3.
  destruct (fs w !! "/proc/1/cgroup") as [[c1|e1]|];
    destruct (fs w !! "/proc/self/cgroup") as [[c2|e2]|];
    repeat case_cond; simpl; try done; by intros [= ->].
Qed.

(** X1. [is_container] does not tell two hosts apart whose cgroup files
    differ in the case of their letters only and whose environments
    define the same variable names, whatever the values of the
    variables (an empty value counts as set). *)
Theorem is_container_case_and_values_blind (w w' : world) (s : state) :
  lower_read <$> fs w = lower_read <$> fs w' ->
  dom (environ w) = dom (environ w') ->
  is_container w s = is_container w' s.
Proof.
  intros Hfs Henv.
  assert (Hl : forall p, lower_read <$> (fs w !! p) = lower_read <$> (fs w' !! p)).
  { intros p. by rewrite <- !lookup_fmap, Hfs. }
  assert (He : forall v, in_environ w v = in_environ w' v).
  { intros v. unfold in_environ.
    destruct (environ w !! v) as [x|] eqn:E1; destruct (environ w' !! v) as [y|] eqn:E2;
      try done.
    - apply not_elem_of_dom in E2. rewrite <- Henv in E2.
      by apply not_elem_of_dom in E2; rewrite E2 in E1.
    - apply not_elem_of_dom in E1. rewrite Henv in E1.
      by apply not_elem_of_dom in E1; rewrite E1 in E2. }
  rewrite !is_container_steps. unfold container_step2, container_step3.
  unfold container_env_vars, existsb. rewrite !He.
  pose proof (Hl "/proc/1/cgroup") as H1. pose proof (Hl "/proc/self/cgroup") as H2.
  destruct (fs w !! "/proc/1/cgroup") as [[c1|e1]|];
    destruct (fs w' !! "/proc/1/cgroup") as [[c1'|e1']|]; simplify_eq/=; try done;
    destruct (fs w !! "/proc/self/cgroup") as [[c2|e2]|];
    destruct (fs w' !! "/proc/self/cgroup") as [[c2'|e2']|]; simplify_eq/=; try done;
    repeat match goal with
           | H : Str.lower _ = Str.lower _ |- _ => rewrite H; clear H
           end; done.
Qed.

Lemma is_container_case_and_values_blind_witness :
  is_container HostX.pod_capitals init_state = is_container HostX.pod_small init_state.
Proof.
  apply (is_container_case_and_values_blind HostX.pod_capitals HostX.pod_small init_state).
  - vm_compute. reflexivity.
  - vm_compute. reflexivity.
Defined.

(** X2. [is_container] changes the state in one case only: when the read
    of a cgroup file fails it appends one warning record, and then it
    returns false. On every other path, and whenever it returns true,
    the state is left as it was. *)
Theorem is_container_logs_only_read_failure (w : world) (s : state) :
  (exists b, is_container w s = (Ret b, s)) \/
  (exists e,
     (fs w !! "/proc/1/cgroup" = Some (ReadError e) \/
      fs w !! "/proc/self/cgroup" = Some (ReadError e)) /\
     is_container w s = (Ret false, add_log (container_warning e) s)).
Proof.
  rewrite is_container_steps. unfold container_step2, container_step3.
  destruct (fs w !! "/proc/1/cgroup") as [[c1|e1]|];
    destruct (fs w !! "/proc/self/cgroup") as [[c2|e2]|];
    repeat case_cond;
    first [ left; eexists; reflexivity
          | right; eexists; split; [left; reflexivity | reflexivity]
          | right; eexists; split; [right; reflexivity | reflexivity] ].
Qed.

(** ** Classification *)

(** X3. The chain stops at the container check: on a host where
    [is_container] returns true the result is [("container", 2)], nothing
    is logged, and neither command counts; whatever [cpuid] and [wmic]
    would do on a host with the same files and variables, the result is
    the same. *)
Theorem get_environment_type_container_short_circuit (w w' : world) (s : state) :
  fs w' = fs w -> environ w' = environ w ->
  fst (is_container w s) = Ret true ->
  get_environment_type w' s = (Ret ("container", 2), s).
Proof.
  intros Hfs Henv H.
  assert (E : is_container w' s = (Ret true, s)).
  { rewrite (is_container_ext w' w s).
    - by apply is_container_true_silent.
    - by rewrite Hfs.
    - by rewrite Hfs.
    - intros v. unfold in_environ. by rewrite Henv. }
  unfold get_environment_type, try_except, bind. by rewrite E.
Qed.

Lemma get_environment_type_container_short_circuit_witness :
  get_environment_type HostX.pod_small init_state = (Ret ("container", 2), init_state).
Proof.
  apply (get_environment_type_container_short_circuit
           (MkWorld (fs HostX.pod_small) (environ HostX.pod_small)
              Host.no_command Host.every_port_free Interrupt)
           HostX.pod_small init_state).
  - reflexivity.
  - reflexivity.
  - vm_compute. reflexivity.
Defined.

(** [is_vm] raises exactly what the launch of [cpuid] raises outside the
    three classes it catches. *)
Lemma is_vm_raises_iff (w : world) (s : state) (r : raised) :
  fst (is_vm w s) = Raise r <->
  exists e, r = Exc e /\ subprocess_run w ["cpuid"] = RunError e /\
            exn_class e ∉ cpuid_caught.
Proof.
  assert (H2 : forall s0, fst (vm_step2 w s0) <> Raise r).
  { intros s0. unfold vm_step2.
    destruct (fs w !! "/proc/cpuinfo") as [[c|e]|]; [|done|done].
    by destruct (Str.first_match _ _). }
  rewrite is_vm_steps.
  destruct (subprocess_run w ["cpuid"]) as [rc out|e].
  - split; [|by intros (e & _ & ? & _)].
    case_cond; [|by intros ?%H2].
    destruct (Str.first_match _ _); [done|by intros ?%H2].
  - destruct (existsb _ _) eqn:E.
    + split; [by intros ?%H2|].
      intros (e' & _ & [= <-] & Hn). by apply cpuid_caught_iff in E.
    + split.
      * intros [= <-]. exists e. repeat split.
        intros Hin%cpuid_caught_iff. by rewrite Hin in E.
      * by intros (e' & -> & [= <-] & _).
Qed.

(** X4. The result is [("unknown", -1)] exactly when the container check
    returns false and the launch of [cpuid] raises an exception other
    than a timeout, a [CalledProcessError] or command-not-found. No
    state of [/proc/cpuinfo] or of [wmic] leads to it. *)
Theorem get_environment_type_unknown_iff (w : world) (s : state) :
  fst (get_environment_type w s) = Ret ("unknown", -1) <->
  fst (is_container w s) = Ret false /\
  exists e, subprocess_run w ["cpuid"] = RunError e /\ exn_class e ∉ cpuid_caught.
Proof.
  destruct (is_container_returned w) as (oc & lc & Hoc & Hc).
  destruct (detect_vm_windows_returned w) as (op & lp & Hop & Hp).
  destruct oc as [c|]; [|done]. destruct op as [p|]; [|done].
  pose proof (is_vm_raises_iff w (add_logs lc s)) as Hr.
  unfold get_environment_type, try_except, bind. rewrite Hc.
  destruct c; [by split; [|intros [? _]]|]. simpl.
  destruct (is_vm w (add_logs lc s)) as [[[|]|r] s2] eqn:Ev; simpl in *.
  - split; [done|]. intros (_ & e & He & Hn).
    discriminate (proj2 (Hr (Exc e)) (ex_intro _ e (conj eq_refl (conj He Hn)))).
  - rewrite Hp. split.
    + by destruct (truthy p).
    + intros (_ & e & He & Hn).
      discriminate (proj2 (Hr (Exc e)) (ex_intro _ e (conj eq_refl (conj He Hn)))).
  - destruct (proj1 (Hr r) eq_refl) as (e & -> & He & Hn). simpl.
    split; [|done]. intros _. split; [done|]. by exists e.
Qed.

(** ** The vm probe *)

(** X5. When [cpuid] exits with a non-zero status its output is not
    looked at: two hosts with the same [/proc/cpuinfo] on which [cpuid]
    fails, with whatever status and output, get the same answer and the
    same log from [is_vm]. *)
Theorem is_vm_nonzero_exit_ignores_output
    (w w' : world) (s : state) (rc rc' : Z) (out out' : string) :
  fs w !! "/proc/cpuinfo" = fs w' !! "/proc/cpuinfo" ->
  subprocess_run w ["cpuid"] = Completed rc out ->
  subprocess_run w' ["cpuid"] = Completed rc' out' ->
  rc <> 0 -> rc' <> 0 ->
  is_vm w s = is_vm w' s.
Proof.
  intros Hf H H' Hrc Hrc'. rewrite !is_vm_steps, H, H'.
  apply Z.eqb_neq in Hrc, Hrc'. rewrite Hrc, Hrc'.
  unfold vm_step2. by rewrite Hf.
Qed.

Lemma is_vm_nonzero_exit_ignores_output_witness :
  is_vm HostX.bare_metal_loud init_state = is_vm HostX.bare_metal_quiet init_state.
Proof.
  apply (is_vm_nonzero_exit_ignores_output
           HostX.bare_metal_loud HostX.bare_metal_quiet init_state
           1 2 "cpuid: failed on a KVM guest" "").
  - reflexivity.
  - reflexivity.
  - reflexivity.
  - lia.
  - lia.
Defined.

(** ** The signature lists *)

Lemma append_assoc (a b c : string) :
  ((a ++ b) ++ c = a ++ b ++ c)%string.
Proof.
  induction a as [|x a IH]; [done|].
  change (String x ((a ++ b) ++ c) = String x (a ++ b ++ c))%string.
  by rewrite IH.
Qed.

(** A text that has [a ++ p ++ b] has [p]. *)
Lemma contains_infix (a p b s : string) :
  Str.contains (a ++ p ++ b)%string s = true -> Str.contains p s = true.
Proof.
  rewrite !StrFacts.contains_iff. intros (pre & post & ->).
  exists (pre ++ a)%string, (b ++ post)%string.
  by rewrite !append_assoc.
Qed.

(** X6. In the second step of [is_container] the indicator
    [system.slice/docker] never decides: every text that has it has
    [docker], so the list matches exactly the texts that the first four
    indicators match. And every text that the signatures of the first
    step match is matched by the indicators of the second step. *)
Theorem container_indicators_redundant (c : string) :
  Str.contains_any container_indicators c
    = Str.contains_any ["docker"; "lxc"; "containerd"; "kubepods"] c /\
  (Str.contains_any cgroup_1_signatures c = true ->
   Str.contains_any container_indicators c = true).
Proof.
  unfold Str.contains_any, container_indicators, cgroup_1_signatures, existsb.
  pose proof (contains_infix "system.slice/" "docker" "" c) as H.
  destruct (Str.contains "docker" c); [done|].
  destruct (Str.contains "system.slice/docker" c) eqn:E; [discriminate (H E)|].
  split; [done|].
  destruct (Str.contains "lxc" c), (Str.contains "containerd" c),
    (Str.contains "kubepods" c); done.
Qed.

Lemma container_indicators_redundant_witness :
  Str.contains_any container_indicators "0::/kubepods/burstable/pod7" = true.
Proof.
  apply (proj2 (container_indicators_redundant "0::/kubepods/burstable/pod7")).
  vm_compute. reflexivity.
Defined.

(** X7. Every text that one of the [/proc/cpuinfo] indicators matches is
    matched by the [cpuid] signatures, because [hyperv] is the beginning
    of [hypervisor]. So when [cpuid] exits with 0 and its lower-cased
    output has the word [hypervisor], in whatever sentence, [is_vm]
    returns true. *)
Theorem vm_indicators_subsumed (w : world) (s : state) (out : string) :
  subprocess_run w ["cpuid"] = Completed 0 out ->
  Str.contains_any vm_indicators (Str.lower out) = true ->
  Str.contains_any vm_signatures (Str.lower out) = true /\
  fst (is_vm w s) = Ret true.
Proof.
  intros Hrun H.
  assert (Hs : Str.contains_any vm_signatures (Str.lower out) = true).
  { revert H. generalize (Str.lower out) as c. intros c.
    unfold Str.contains_any, vm_indicators, vm_signatures, existsb.
    pose proof (contains_infix "" "hyperv" "isor" c) as Hh.
    destruct (Str.contains "hypervisor" c) eqn:E.
    - rewrite (Hh E). intros _. by rewrite !orb_true_r.
    - destruct (Str.contains "vmware" c), (Str.contains "virtualbox" c),
        (Str.contains "kvm" c), (Str.contains "qemu" c), (Str.contains "xen" c),
        (Str.contains "bochs" c), (Str.contains "parallels" c);
        rewrite ?orb_true_r; done. }
  split; [done|].
  rewrite is_vm_steps, Hrun, Z.eqb_refl.
  rewrite StrFacts.first_match_contains_any in Hs.
  by destruct (Str.first_match _ _).
Qed.

Lemma vm_indicators_subsumed_witness :
  Str.contains_any vm_signatures (Str.lower "   hypervisor guest status = false") = true /\
  fst (is_vm HostX.bare_metal_with_cpuid init_state) = Ret true.
Proof.
  apply (vm_indicators_subsumed HostX.bare_metal_with_cpuid init_state
           "   hypervisor guest status = false").
  - reflexivity.
  - vm_compute. reflexivity.
Defined.

(** ** The exporter *)

(** What [get_environment_type] and [update_metrics] do on a host, from
    whatever state. *)
Lemma update_metrics_result (w : world) :
  exists env_name env_value l,
    (forall s, get_environment_type w s = (Ret (env_name, env_value), add_logs l s)) /\
    (forall s, update_metrics w s =
                 (Ret tt, add_logs (l ++ [update_info env_name env_value])
                            (with_gauge {[ env_name := env_value ]} s))) /\
    env_name ∈ ["container"; "vm"; "hardware"; "unknown"].
Proof.
  destruct (get_environment_type_returned w) as (o & l & Ho & H).
  destruct o as [[n v]|]; [|done].
  exists n, v, l. split; [done|]. split.
  - intros s. unfold update_metrics.
    rewrite (update_metrics_with_returns _ s _ n v (H s)).
    unfold add_log, add_logs, with_gauge. simpl. by rewrite <- app_assoc.
  - destruct (is_container_returned w) as (oc & lc & Hoc & Hc).
    destruct (is_vm_no_exit w) as (ov & lv & Hov & Hv).
    destruct (detect_vm_windows_returned w) as (op & lp & Hop & Hp).
    destruct oc as [c|]; [|done]. destruct op as [p|]; [|done].
    specialize (H init_state). revert H.
    unfold get_environment_type, try_except, bind. rewrite Hc.
    destruct c; [intros [= <- _ _]; set_solver|].
    rewrite Hv. destruct ov as [[|]|[e| |c]]; try done.
    + intros [= <- _ _]; set_solver.
    + rewrite Hp. destruct (truthy p); intros [= <- _ _]; set_solver.
    + simpl. intros [= <- _ _]; set_solver.
Qed.

(** X8. With the detector of the program, [update_metrics] returns from
    every state, whatever labels the gauge held before (the label
    [error] of an earlier failure included), and leaves the gauge with
    exactly one label: the name and the code that [get_environment_type]
    gives on the host. The label [error] is not set, and nothing but the
    gauge and the log is changed. *)
Theorem update_metrics_publishes_classification (w : world) (s : state) :
  exists env_name env_value s',
    fst (get_environment_type w s) = Ret (env_name, env_value) /\
    update_metrics w s = (Ret tt, s') /\
    gauge s' = {[ env_name := env_value ]} /\
    gauge s' !! "error" = None /\
    last (logs s') = Some (update_info env_name env_value) /\
    bind_calls s' = bind_calls s /\ listening s' = listening s /\
    stdout s' = stdout s.
Proof.
  destruct (update_metrics_result w) as (n & v & l & Hg & Hu & Hn).
  exists n, v. eexists. rewrite Hg, Hu.
  repeat split; fields.
  - apply lookup_singleton_None. intros ->. set_solver.
  - by rewrite app_assoc, last_snoc.
Qed.

(** X9. Detection only logs: on a host, [get_environment_type] returns
    the same result from every state and appends the same records to the
    log; the gauge, the ports and the standard output are left alone. So
    a second call gives the result of the first. *)
Theorem get_environment_type_only_logs (w : world) :
  exists r l,
    (forall s, get_environment_type w s = (Ret r, add_logs l s)) /\
    (forall s, fst (get_environment_type w (snd (get_environment_type w s))) = Ret r).
Proof.
  destruct (get_environment_type_returned w) as (o & l & Ho & H).
  destruct o as [r|]; [|done].
  exists r, l. split; [done|]. intros s. by rewrite !H.
Qed.

(** ** Start-up *)

(** [main] after the one call of [update_metrics], with the result of
    the classification at hand. *)
Ltac run_main_with w n v l Hg Hu Hn :=
  destruct (update_metrics_result w) as (n & v & l & Hg & Hu & Hn);
  unfold run_process, main, try_except, try_finally, bind;
  rewrite Hu;
  unfold except_Exception, start_http_server, input, set_port, get_port,
    log, sys_exit, raise, ret;
  fields.

(** X10. The exit status of the process is 0 or 1 and nothing else: it
    is 1 when both ports fail to bind or when standard input is at end
    of file, and 0 when a port is bound and [input] returns a line or is
    interrupted. The prompt is printed exactly when a port was bound. *)
Theorem run_process_exit_status (w : world) :
  fst (run_process w) =
    match bind_port w 8080, bind_port w 8082, stdin w with
    | Some _, Some _, _ => 1
    | _, _, EndOfFile => 1
    | _, _, _ => 0
    end /\
  stdout (snd (run_process w)) =
    match bind_port w 8080, bind_port w 8082 with
    | Some _, Some _ => []
    | _, _ => ["Press any button to exit"]
    end.
Proof.
  run_main_with w n v l Hg Hu Hn.
  destruct (bind_port w 8080) as [e1|]; fields;
    destruct (bind_port w 8082) as [e2|]; fields;
    destruct (stdin w); fields; done.
Qed.

(** X11. The [finally] block reports a started server whatever happened:
    the log always gets the two records naming the port the variable
    [port] holds, 8080 when the first bind succeeded and 8082 otherwise.
    When both binds fail, the log says that the server started on port
    8082 although no port is listened on. *)
Theorem main_reports_start_regardless (w : world) :
  (LogRecord INFO ("Prometheus metrics server started on port " +:+
                   pretty (match bind_port w 8080 with None => 8080 | Some _ => 8082 end))
     ∈ logs (snd (run_process w)) /\
   LogRecord INFO ("Metrics available at: http://localhost:" +:+
                   pretty (match bind_port w 8080 with None => 8080 | Some _ => 8082 end)
                   +:+ "/metrics")
     ∈ logs (snd (run_process w))) /\
  (forall e1 e2,
     bind_port w 8080 = Some e1 -> bind_port w 8082 = Some e2 ->
     LogRecord INFO "Prometheus metrics server started on port 8082"
       ∈ logs (snd (run_process w)) /\
     listening (snd (run_process w)) = []).
Proof.
  split.
  - run_main_with w n v l Hg Hu Hn.
    destruct (bind_port w 8080) as [e1|]; fields;
      [destruct (bind_port w 8082) as [e2|]; fields|];
      destruct (stdin w); fields;
      rewrite !elem_of_app, !list_elem_of_singleton; split; by eauto 10.
  - intros e1 e2 H1 H2. run_main_with w n v l Hg Hu Hn.
    rewrite H1. fields. rewrite H2. fields. split; [|done].
    rewrite !elem_of_app, !list_elem_of_singleton.
    left. left. right. reflexivity.
Qed.

Lemma main_reports_start_regardless_witness :
  LogRecord INFO "Prometheus metrics server started on port 8082"
    ∈ logs (snd (run_process HostP.both_ports_taken)) /\
  listening (snd (run_process HostP.both_ports_taken)) = [].
Proof.
  apply (proj2 (main_reports_start_regardless HostP.both_ports_taken)
           Host.in_use Host.in_use); reflexivity.
Defined.

(** X12. The metric published at start-up stays to the end: whatever the
    ports and the standard input do, when the process exits the gauge
    holds exactly one label, the classification of the host, and never
    the label [error]. *)
Theorem run_process_gauge (w : world) :
  exists env_name env_value,
    fst (get_environment_type w init_state) = Ret (env_name, env_value) /\
    gauge (snd (run_process w)) = {[ env_name := env_value ]} /\
    gauge (snd (run_process w)) !! "error" = None.
Proof.
  run_main_with w n v l Hg Hu Hn.
  exists n, v. rewrite Hg. split; [done|].
  assert (Hne : ({[ n := v ]} : gmap string Z) !! "error" = None).
  { apply lookup_singleton_None. intros ->. set_solver. }
  destruct (bind_port w 8080) as [e1|]; fields;
    [destruct (bind_port w 8082) as [e2|]; fields|];
    destruct (stdin w); fields; done.
Qed.

(** ** Repeated updates of the gauge *)

(** What one call does to the gauge when the classification only logs. *)
Lemma update_metrics_with_gauge (classify : M (string * Z)) (s : state) :
  behaves no_exit classify ->
  (exists env_name env_value,
     gauge (snd (update_metrics_with classify s)) = {[ env_name := env_value ]}) \/
  gauge (snd (update_metrics_with classify s)) = <[ "error" := -1 ]> (gauge s).
Proof.
  intros (o & l & Ho & H).
  unfold update_metrics_with, try_except, bind. rewrite H.
  destruct o as [[n v]|[e| |c]]; try done.
  - left. exists n, v. simpl. by rewrite insert_empty.
  - by right.
Qed.

Lemma updates_gauge_shape (cs : list (M (string * Z))) (s : state) :
  Forall (behaves no_exit) cs ->
  gauge_shape (gauge s) -> gauge_shape (gauge (updates cs s)).
Proof.
  intros Hcs. revert s.
  induction Hcs as [|c cs Hc _ IH]; intros s Hs; [done|].
  unfold updates. simpl. apply IH.
  destruct (update_metrics_with_gauge c s Hc) as [(n & v & ->) | ->].
  - right. exists n, v. by left.
  - right. destruct Hs as [->|(n & v & [->| ->])].
    + exists "error", (-1). left. by rewrite insert_empty.
    + exists n, v. by right.
    + exists n, v. right. by rewrite insert_insert_eq.
Qed.

(** X13. However calls of [update_metrics] that succeed and calls whose
    classification throws follow each other, the gauge never holds more
    than two labels: besides the label of the last call that cleared it
    there is at most the label [error]. *)
Theorem updates_at_most_two_labels (cs : list (M (string * Z))) :
  Forall (behaves no_exit) cs ->
  (size (gauge (updates cs init_state)) <= 2)%nat /\
  (forall k, is_Some (gauge (updates cs init_state) !! k) ->
             k <> "error" ->
             forall k', is_Some (gauge (updates cs init_state) !! k') ->
                        k' = k \/ k' = "error").
Proof.
  intros Hcs.
  destruct (updates_gauge_shape cs init_state Hcs (or_introl eq_refl))
    as [->|(n & v & [->| ->])].
  - split; [rewrite map_size_empty; lia|].
    intros k [x Hx]. by rewrite lookup_empty in Hx.
  - split; [rewrite map_size_singleton; lia|].
    intros k [x Hx] _ k' [x' Hx'].
    apply lookup_singleton_Some in Hx as [<- _].
    apply lookup_singleton_Some in Hx' as [<- _]. by left.
  - split.
    + rewrite map_size_insert, map_size_singleton.
      destruct (_ !! _); simpl; lia.
    + intros k [x Hx] Hk k' [x' Hx'].
      rewrite lookup_insert_ne in Hx by done.
      apply lookup_singleton_Some in Hx as [<- _].
      destruct (decide (k' = "error")) as [->|Hk']; [by right|].
      rewrite lookup_insert_ne in Hx' by done.
      apply lookup_singleton_Some in Hx' as [<- _]. by left.
Qed.

Lemma updates_at_most_two_labels_witness :
  (size (gauge (updates [ret ("vm", 1%Z); simulated_fault; simulated_fault] init_state))
     <= 2)%nat.
Proof.
  apply (updates_at_most_two_labels [ret ("vm", 1); simulated_fault; simulated_fault]).
  repeat constructor.
  - by apply behaves_ret.
  - apply behaves_raise_Exc.
  - apply behaves_raise_Exc.
Defined.
